(** * Loan-scoring service: the request handlers of [backend/app/api.py]

    A shallow embedding of the FastAPI application module and the
    properties of its handlers.  Python values are a small inductive
    type, dictionaries are finite maps, and a handler is a computation
    over the process state (module globals, standard output, the [pmds]
    logger and the sequence of helper calls) that either returns or
    raises. *)

From Stdlib Require Import ZArith QArith String List.
From stdpp Require Import gmap strings list.

Set Warnings "-register-all".
Local Open Scope string_scope.
Local Open Scope list_scope.

(** ** Python values *)

Inductive PyVal : Type :=
| PyNone
| PyBool (b : bool)
| PyInt (z : Z)
| PyFloat (q : Q)
| PyStr (s : string)
| PyList (l : list PyVal)
| PyDict (d : gmap string PyVal).

(** [bool(v)]: the truth value Python's [if v:] tests. *)
Definition truthy (v : PyVal) : bool :=
  match v with
  | PyNone => false
  | PyBool b => b
  | PyInt z => negb (Z.eqb z 0)
  | PyFloat q => negb (Qeq_bool q 0)
  | PyStr s => negb (String.eqb s "")
  | PyList l => negb (Nat.eqb (length l) 0)
  | PyDict d => negb (Nat.eqb (size d) 0)
  end.

(** ** Exceptions and results *)

(** An exception is identified by its class name and carries one
    argument. *)
Record PyExc : Type := Exc { exc_class : string; exc_arg : string }.

Definition NameError (name : string) : PyExc := Exc "NameError" name.
Definition IndexError : PyExc := Exc "IndexError" "list index out of range".
Definition TypeError (msg : string) : PyExc := Exc "TypeError" msg.
Definition AttributeError (msg : string) : PyExc := Exc "AttributeError" msg.

Inductive Result (A : Type) : Type :=
| Ok (a : A)
| Raise (e : PyExc).
Arguments Ok {A} a.
Arguments Raise {A} e.

#[export] Instance Result_ret : MRet Result := fun A a => Ok a.

#[export] Instance Result_bind : MBind Result := fun A B k r =>
  match r with
  | Ok a => k a
  | Raise e => Raise e
  end.

Definition is_Ok {A} (r : Result A) : bool :=
  match r with Ok _ => true | Raise _ => false end.

(** [d.get(key)]: [None] when the key is missing. *)
Definition dict_get (d : gmap string PyVal) (key : string) : PyVal :=
  default PyNone (d !! key).

(** [v.get(key)] on an arbitrary value: only dictionaries have [get]. *)
Definition py_get (v : PyVal) (key : string) : Result PyVal :=
  match v with
  | PyDict d => Ok (dict_get d key)
  | _ => Raise (AttributeError "object has no attribute 'get'")
  end.

(** [v[i]] for a non-negative literal index [i]: an element of a list,
    a character of a string; a dictionary with string keys has no integer
    key, and the other values are not subscriptable. *)
Definition py_index (v : PyVal) (i : nat) : Result PyVal :=
  match v with
  | PyList l =>
      match l !! i with
      | Some x => Ok x
      | None => Raise IndexError
      end
  | PyStr s =>
      match String.get i s with
      | Some c => Ok (PyStr (String c EmptyString))
      | None => Raise (Exc "IndexError" "string index out of range")
      end
  | PyDict _ => Raise (Exc "KeyError" "integer key")
  | _ => Raise (TypeError "object is not subscriptable")
  end.

(** Booleans count as the integers 0 and 1 in arithmetic. *)
Definition py_int (v : PyVal) : option Z :=
  match v with
  | PyBool b => Some (Z.b2z b)
  | PyInt z => Some z
  | _ => None
  end.

(** [a + b]: concatenation of two strings or of two lists, sum of two
    integers; any other pair of operands raises [TypeError].  (The sum
    of floats, which rounds, does not occur in the module and is left
    out: a float operand is reported like an unsupported one.) *)
Definition py_add (a b : PyVal) : Result PyVal :=
  match a with
  | PyStr s =>
      match b with
      | PyStr t => Ok (PyStr (String.append s t))
      | _ => Raise (TypeError "can only concatenate str to str")
      end
  | PyList l =>
      match b with
      | PyList k => Ok (PyList (l ++ k))
      | _ => Raise (TypeError "can only concatenate list to list")
      end
  | _ =>
      match py_int a, py_int b with
      | Some x, Some y => Ok (PyInt (x + y))
      | _, _ => Raise (TypeError "unsupported operand type(s) for +")
      end
  end.

(** ** HTTP-level data *)

(** A request, reduced to what the handlers read: the decoded form
    fields in the order they were sent. *)
Record Request : Type := { form : list (string * string) }.

(** [jsonable_encoder(await request.form())]: the form multi-dict
    becomes a plain dictionary; a field sent twice keeps its last
    value. *)
Definition jsonable_encoder_form (items : list (string * string))
  : gmap string PyVal :=
  foldl (fun d kv => <[kv.1 := PyStr kv.2]> d) ∅ items.

(** Values placed in a template context. *)
Inductive CtxVal : Type :=
| CtxRequest (r : Request)
| CtxStr (s : string).

Inductive Response : Type :=
| TemplateResponse (name : string) (context : gmap string CtxVal)
| JSONResponse (status_code : Z) (content : PyVal)
| RedirectResponse (url : string)
| Returned (value : PyVal).

Definition HTTP_422_UNPROCESSABLE_ENTITY : Z := 422.
Definition HTTP_500_INTERNAL_SERVER_ERROR : Z := 500.

(** The [RequestValidationError] FastAPI hands to the handler:
    [errors()] is a list of entries with a location tuple, a message and
    an error type; [body] is the received body. *)
Record ErrorEntry : Type :=
  { loc : list PyVal; msg : string; type_ : string }.

Record RequestValidationError : Type :=
  { errors : list ErrorEntry; body : PyVal }.

Definition encode_error (e : ErrorEntry) : PyVal :=
  PyDict {[ "loc" := PyList (loc e);
            "msg" := PyStr (msg e);
            "type" := PyStr (type_ e) ]}.

(** Log records of the [pmds] logger. *)
Inductive LogMsg : Type :=
| Text (s : string)
| FStr (prefix : string) (value : PyVal)
| Obj (value : PyVal).

Record LogRecord : Type := { level : string; message : LogMsg }.

(** Modelled from the spec: [app/models.py] (the pydantic models
    [RequestBody] and [ResponseBody]) is not part of the sources.  The
    schema is the one of the interface description: age (int), income
    (number), gender (Male/Female), hasApplied, hasIncome, education,
    purpose (strings of an enumeration), bureau (an optional object with
    two integer counts), and a response holding the boolean decision. *)
Inductive Gender : Type := Male | Female.

Record Bureau : Type := { loanWithDelay : Z; loanNoDelay : Z }.

Record RequestBody : Type :=
  { age : Z;
    income : Q;
    gender : Gender;
    hasApplied : string;
    hasIncome : string;
    education : string;
    purpose : string;
    bureau : option Bureau }.

Record ResponseBody : Type := { LoanDecision : bool }.

Definition Gender_value (g : Gender) : string :=
  match g with Male => "Male" | Female => "Female" end.

Definition Bureau_dict (b : Bureau) : gmap string PyVal :=
  {[ "loanWithDelay" := PyInt (loanWithDelay b);
     "loanNoDelay" := PyInt (loanNoDelay b) ]}.

(** [req.dict()]: every field, nested models turned into dictionaries,
    an absent bureau as [None]. *)
Definition RequestBody_dict (req : RequestBody) : gmap string PyVal :=
  {[ "age" := PyInt (age req);
     "income" := PyFloat (income req);
     "gender" := PyStr (Gender_value (gender req));
     "hasApplied" := PyStr (hasApplied req);
     "hasIncome" := PyStr (hasIncome req);
     "education" := PyStr (education req);
     "purpose" := PyStr (purpose req);
     "bureau" := match bureau req with
                 | Some b => PyDict (Bureau_dict b)
                 | None => PyNone
                 end ]}.

(** What FastAPI does with the value a handler declared with
    [response_model=ResponseBody] returns: the value is validated
    against the model and only the model's fields are sent. *)
Definition ResponseBody_validate (v : PyVal) : Result ResponseBody :=
  match v with
  | PyDict d =>
      match d !! "LoanDecision" with
      | Some (PyBool b) => Ok {| LoanDecision := b |}
      | _ => Raise (Exc "ValidationError" "LoanDecision")
      end
  | _ => Raise (Exc "ValidationError" "value is not a valid dict")
  end.

Definition ResponseBody_dict (r : ResponseBody) : gmap string PyVal :=
  {[ "LoanDecision" := PyBool (LoanDecision r) ]}.

(** ** The process state and the handler monad *)

Section Api.
(** The model artifacts are opaque; so are the helper's intermediate
    values (the parsed input and the feature table). *)
Context {Model Parsed Features : Type}.

(** Calls into [app.helper], in the order they were made, each with its
    arguments and with what it returned or raised. *)
Inductive Call : Type :=
| ParseRequest (reqData : gmap string PyVal) (r : Result PyVal)
| ParseInput (data : PyVal) (r : Result Parsed)
| FeatureEngineering (parsed : Parsed) (r : Result Features)
| PredictScore (t : Features) (model : Model) (r : Result (Q * Q * bool))
| GradeBinning (proba : Q) (tag : string) (r : Result string).

(** [globals]: the names bound at module level by the model loading
    block; [stdout]: what [print] wrote; [log]: the records of the
    [pmds] logger; [calls]: the helper calls made so far. *)
Record World : Type :=
  { globals : gmap string Model;
    stdout : list string;
    log : list LogRecord;
    calls : list Call }.

Definition Run (A : Type) : Type := World -> Result A * World.

#[export] Instance Run_ret : MRet Run := fun A a w => (Ok a, w).

#[export] Instance Run_bind : MBind Run := fun A B k m w =>
  match m w with
  | (Ok a, w') => k a w'
  | (Raise e, w') => (Raise e, w')
  end.

(** Lift a pure result: return its value or raise its exception. *)
Definition lift {A} (r : Result A) : Run A := fun w => (r, w).

(** [try: body / except: handler] with a bare [except]. *)
Definition try_except {A} (body handler : Run A) : Run A := fun w =>
  match body w with
  | (Ok a, w') => (Ok a, w')
  | (Raise _, w') => handler w'
  end.

(** Reading a module-level name; unbound names raise [NameError]. *)
Definition load_global (name : string) : Run Model := fun w =>
  match globals w !! name with
  | Some m => (Ok m, w)
  | None => (Raise (NameError name), w)
  end.

(** A module-level assignment [name = value]. *)
Definition store_global (name : string) (value : Model) : Run unit :=
  fun w =>
    (Ok tt, {| globals := <[name := value]> (globals w);
               stdout := stdout w; log := log w; calls := calls w |}).

Definition print (s : string) : Run unit := fun w =>
  (Ok tt, {| globals := globals w; stdout := stdout w ++ [s];
             log := log w; calls := calls w |}).

Definition logger (lvl : string) (m : LogMsg) : Run unit := fun w =>
  (Ok tt, {| globals := globals w; stdout := stdout w;
             log := log w ++ [{| level := lvl; message := m |}];
             calls := calls w |}).

Definition logger_info := logger "INFO".
Definition logger_error := logger "ERROR".
Definition logger_debug := logger "DEBUG".

(** A helper call: record it with its outcome, then return or raise
    what it yields. *)
Definition invoke {A} (c : Result A -> Call) (r : Result A) : Run A :=
  fun w =>
    (r, {| globals := globals w; stdout := stdout w; log := log w;
           calls := calls w ++ [c r] |}).

(** Modelled from the spec: [app/helper.py] is not part of the
    sources.  Its five functions are the interface the handlers import;
    following the component contracts they are side-effect free (they
    neither change their arguments nor the process state) and either
    return or raise.  [predict_score] returns the triple the handlers
    unpack: raw score, probability and boolean decision; [grade_binning]
    returns the letter of the band. *)
Class Helper : Type :=
  { parse_request : gmap string PyVal -> Result PyVal;
    parse_input : PyVal -> Result Parsed;
    feature_engineering : Parsed -> Result Features;
    predict_score : Features -> Model -> Result (Q * Q * bool);
    grade_binning : Q -> string -> Result string }.

Context {helper : Helper}.

(** ** Module initialisation: loading the two models *)

Definition bureau_path : string := "backend/assets/xgb_retrain_bureau.pkl".
Definition no_bureau_path : string :=
  "backend/assets/xgb_retrain_no_bureau.pkl".

(** The [try]/[except] block at module level; [joblib_load] is what
    loading a path from the file system yields. *)
Definition load_models (joblib_load : string -> Result Model) : Run unit :=
  try_except
    (model_bureau ← lift (joblib_load bureau_path);
     store_global "model_bureau" model_bureau;;
     model_no_bureau ← lift (joblib_load no_bureau_path);
     store_global "model_no_bureau" model_no_bureau;;
     print "Model Loaded")
    (print "Fail to Load Model").

(** The state a fresh process starts from. *)
Definition initial : World :=
  {| globals := ∅; stdout := []; log := []; calls := [] |}.

Definition startup (joblib_load : string -> Result Model) : World :=
  (load_models joblib_load initial).2.

(** ** Handlers *)

(** [@app.exception_handler(RequestValidationError)] *)
Definition validation_exception_handler
    (request : Request) (exc : RequestValidationError) : Run Response :=
  let content_log : PyVal :=
    PyDict {[ "detail" := PyList (encode_error <$> errors exc);
              "body" := body exc ]} in
  content_msg ← lift (d ← py_get content_log "detail";
                      e ← py_index d 0;
                      py_get e "msg");
  content_loc ← lift (d ← py_get content_log "detail";
                      e ← py_index d 0;
                      l ← py_get e "loc";
                      py_index l 1);
  logger_error (Obj content_log);;
  content ← lift (s ← py_add content_msg (PyStr ", field : ");
                  py_add s content_loc);
  mret (JSONResponse HTTP_422_UNPROCESSABLE_ENTITY content).
(** [app.url_path_for("index_html")]: the path the route table gives the
    form page. *)
Definition url_path_for (name : string) : Result string :=
  if String.eqb name "index_html" then Ok "/home"
  else Raise (Exc "NoMatchFound" name).

(** [@app.get("/")] *)
Definition root : Run Response :=
  url ← lift (url_path_for "index_html");
  let response := RedirectResponse url in
  logger_debug (Text "Redirected to home");;
  mret response.

(** [@app.get('/home')] *)
Definition index_html (request : Request) : Run Response :=
  mret (TemplateResponse "index.html" {[ "request" := CtxRequest request ]}).

(** [grade in ['A', 'B']] *)
Definition approved_grades : list string := ["A"; "B"].

Definition grade_in (grade : string) (l : list string) : bool :=
  existsb (String.eqb grade) l.

(** [@app.post("/predict")] *)
Definition get_prediction (request : Request) : Run Response :=
  let reqDataForm := form request in
  let reqData := jsonable_encoder_form reqDataForm in
  reqData_parsed ← invoke (ParseRequest reqData) (parse_request reqData);
  parsed ← invoke (ParseInput reqData_parsed) (parse_input reqData_parsed);
  t ← invoke (FeatureEngineering parsed) (feature_engineering parsed);
  '(score, proba, loan_dec, grade) ←
    (if truthy (dict_get reqData "bureau") then
       model_bureau ← load_global "model_bureau";
       '(score, proba, loan_dec) ←
         invoke (PredictScore t model_bureau) (predict_score t model_bureau);
       grade ← invoke (GradeBinning proba "model_bureau")
                      (grade_binning proba "model_bureau");
       mret (score, proba, loan_dec, grade)
     else
       model_no_bureau ← load_global "model_no_bureau";
       '(score, proba, loan_dec) ←
         invoke (PredictScore t model_no_bureau)
                (predict_score t model_no_bureau);
       grade ← invoke (GradeBinning proba "model_no_bureau")
                      (grade_binning proba "model_no_bureau");
       mret (score, proba, loan_dec, grade));
  let page := if grade_in grade approved_grades
              then "result_approve.html" else "result_reject.html" in
  logger_info (FStr "predicting.." (PyFloat score));;
  logger_info (FStr "Loan Decision.." (PyBool loan_dec));;
  mret (TemplateResponse page {[ "request" := CtxRequest request;
                                 "grade" := CtxStr grade ]}).

(** [@app.post("/apiTest", response_model=ResponseBody)]; [req] is the
    body FastAPI has already validated. *)
Definition testing (req : RequestBody) : Run Response :=
  let req_dict := RequestBody_dict req in
  parsed ← invoke (ParseInput (PyDict req_dict))
                  (parse_input (PyDict req_dict));
  t ← invoke (FeatureEngineering parsed) (feature_engineering parsed);
  '(score, proba, loan_dec) ←
    (if truthy (dict_get req_dict "bureau") then
       model_bureau ← load_global "model_bureau";
       invoke (PredictScore t model_bureau) (predict_score t model_bureau)
     else
       model_no_bureau ← load_global "model_no_bureau";
       invoke (PredictScore t model_no_bureau)
              (predict_score t model_no_bureau));
  logger_info (FStr "predicting.." (PyFloat score));;
  mret (Returned (PyDict {[ "LoanDecision" := PyBool loan_dec ]})).

(** ** What the framework sends *)

(** The body sent for a value returned from a [response_model] route. *)
Definition serialize_response (r : Response) : Result Response :=
  match r with
  | Returned v =>
      body ← ResponseBody_validate v;
      Ok (JSONResponse 200 (PyDict (ResponseBody_dict body)))
  | _ => Ok r
  end.

(** An exception that leaves a handler is answered with a plain 500. *)
Definition status_of (r : Result Response) : Z :=
  match r with
  | Ok (JSONResponse code _) => code
  | Ok (RedirectResponse _) => 307
  | Ok _ => 200
  | Raise _ => HTTP_500_INTERNAL_SERVER_ERROR
  end.

(** ** Vocabulary of the statements *)

(** What a run appended to the outputs of the process. *)
Record Output : Type :=
  { out_stdout : list string;
    out_log : list LogRecord;
    out_calls : list Call }.

Definition extends (w w' : World) (o : Output) : Prop :=
  stdout w' = stdout w ++ out_stdout o /\
  log w' = log w ++ out_log o /\
  calls w' = calls w ++ out_calls o.

(** Two states agree on some global names when each of these names is
    bound to the same model, or unbound, in both. *)
Definition agree_on (names : list string) (w1 w2 : World) : Prop :=
  forall k, k ∈ names -> globals w1 !! k = globals w2 !! k.

(** A computation that reads nothing of the state but the models bound
    to [names] and writes nothing but the outputs: from two states that
    agree on [names] it yields the same result and appends the same
    outputs, and it leaves the globals as they were. *)
Definition reads_only {A} (names : list string) (m : Run A) : Prop :=
  forall w1 w2, agree_on names w1 w2 ->
    (m w1).1 = (m w2).1 /\
    globals (m w1).2 = globals w1 /\
    globals (m w2).2 = globals w2 /\
    exists o, extends w1 (m w1).2 o /\ extends w2 (m w2).2 o.

(** A helper call is consistent with the variant [name] when, if it is a
    scoring call, its model is the one bound to [name], and if it is a
    binning call, its tag is [name]. *)
Definition scored_by (w : World) (name : string) (c : Call) : Prop :=
  match c with
  | PredictScore _ m _ => globals w !! name = Some m
  | GradeBinning _ tag _ => tag = name
  | _ => True
  end.

(** The helper calls made between two states. *)
Definition new_calls (w w' : World) : list Call :=
  drop (length (calls w)) (calls w').

(** A run from [w] is routed to the variant [name] when every helper call
    it makes is consistent with [name] and, if it returns, it has scored
    with the model bound to [name]. *)
Definition routed_to (name : string) (w : World) (r : Result Response * World)
  : Prop :=
  Forall (scored_by w name) (new_calls w r.2) /\
  (is_Ok r.1 = true ->
   exists t m res, globals w !! name = Some m /\
                   PredictScore t m (Ok res) ∈ new_calls w r.2).

(** A run that, if it returns, has binned a probability under [tag]. *)
Definition binned_as (tag : string) (w : World) (r : Result Response * World)
  : Prop :=
  is_Ok r.1 = true ->
  exists proba grade, GradeBinning proba tag (Ok grade) ∈ new_calls w r.2.

Definition is_grade_binning (c : Call) : bool :=
  match c with GradeBinning _ _ _ => true | _ => false end.

Definition is_predict_score (c : Call) : bool :=
  match c with PredictScore _ _ _ => true | _ => false end.

(** The exception a helper call raised, if it raised. *)
Definition outcome_exc {A} (r : Result A) : option PyExc :=
  match r with Ok _ => None | Raise e => Some e end.

Definition call_raised (c : Call) : option PyExc :=
  match c with
  | ParseRequest _ r => outcome_exc r
  | ParseInput _ r => outcome_exc r
  | FeatureEngineering _ r => outcome_exc r
  | PredictScore _ _ r => outcome_exc r
  | GradeBinning _ _ r => outcome_exc r
  end.

(** The helper function a call went to. *)
Definition call_name (c : Call) : string :=
  match c with
  | ParseRequest _ _ => "parse_request"
  | ParseInput _ _ => "parse_input"
  | FeatureEngineering _ _ => "feature_engineering"
  | PredictScore _ _ _ => "predict_score"
  | GradeBinning _ _ _ => "grade_binning"
  end.

(** The record [logger.error(content_log)] writes for a validation
    error. *)
Definition error_record (exc : RequestValidationError) : LogRecord :=
  {| level := "ERROR";
     message := Obj (PyDict {[ "detail" := PyList (encode_error <$> errors exc);
                               "body" := body exc ]}) |}.

(** The state after one more record of the logger. *)
Definition logged (w : World) (r : LogRecord) : World :=
  {| globals := globals w; stdout := stdout w;
     log := log w ++ [r]; calls := calls w |}.

(** [/predict] goes through with the variant [name]: once the form is
    parsed and the features are built, and the global [name] is bound,
    the run calls [predict_score] on the features and on the model bound
    to [name], then, if that returned, [grade_binning] on its
    probability under the tag [name]; it makes no other helper call, and
    its outcome is the page for the grade, or what one of these two
    calls raised. *)
Definition get_prediction_scores_with (name : string) (request : Request)
    (w : World) : Prop :=
  forall data parsed t m,
    let reqData := jsonable_encoder_form (form request) in
    let r := get_prediction request w in
    parse_request reqData = Ok data ->
    parse_input data = Ok parsed ->
    feature_engineering parsed = Ok t ->
    globals w !! name = Some m ->
    new_calls w r.2 =
      [ParseRequest reqData (Ok data); ParseInput data (Ok parsed);
       FeatureEngineering parsed (Ok t);
       PredictScore t m (predict_score t m)] ++
      match predict_score t m with
      | Ok (_, proba, _) =>
          [GradeBinning proba name (grade_binning proba name)]
      | Raise _ => []
      end /\
    r.1 =
      ('(_, proba, _) ← predict_score t m;
       grade ← grade_binning proba name;
       Ok (TemplateResponse
             (if grade_in grade approved_grades
              then "result_approve.html" else "result_reject.html")
             {[ "request" := CtxRequest request;
                "grade" := CtxStr grade ]})).

(** [/apiTest] goes through with the variant [name]: once the features
    are built and the global [name] is bound, the run calls
    [predict_score] on the features and on the model bound to [name],
    makes no other helper call, and returns the decision of that call or
    raises what it raised. *)
Definition testing_scores_with (name : string) (req : RequestBody)
    (w : World) : Prop :=
  forall parsed t m,
    let req_dict := RequestBody_dict req in
    let r := testing req w in
    parse_input (PyDict req_dict) = Ok parsed ->
    feature_engineering parsed = Ok t ->
    globals w !! name = Some m ->
    new_calls w r.2 =
      [ParseInput (PyDict req_dict) (Ok parsed);
       FeatureEngineering parsed (Ok t);
       PredictScore t m (predict_score t m)] /\
    r.1 =
      ('(_, _, loan_dec) ← predict_score t m;
       Ok (Returned (PyDict {[ "LoanDecision" := PyBool loan_dec ]}))).

(** A request routed to an unbound global: it does not return and makes
    no scoring call. *)
Definition fails_unscored (w : World) (r : Result Response * World) : Prop :=
  is_Ok r.1 = false /\
  Forall (fun c => is_predict_score c = false) (new_calls w r.2).

End Api.

Arguments Call : clear implicits.
Arguments World : clear implicits.
Arguments Helper : clear implicits.

(** The same helper with another [grade_binning]. *)
Definition with_grade_binning {Model Parsed Features : Type}
    (g : Q -> string -> Result string) (h : Helper Model Parsed Features)
  : Helper Model Parsed Features :=
  {| parse_request := @parse_request _ _ _ h;
     parse_input := @parse_input _ _ _ h;
     feature_engineering := @feature_engineering _ _ _ h;
     predict_score := @predict_score _ _ _ h;
     grade_binning := g |}.

(** The same helper with the triple of [predict_score] passed through
    [f]. *)
Definition with_predict_score {Model Parsed Features : Type}
    (f : Q * Q * bool -> Q * Q * bool) (h : Helper Model Parsed Features)
  : Helper Model Parsed Features :=
  {| parse_request := @parse_request _ _ _ h;
     parse_input := @parse_input _ _ _ h;
     feature_engineering := @feature_engineering _ _ _ h;
     predict_score := fun t m =>
       match @predict_score _ _ _ h t m with
       | Ok r => Ok (f r)
       | Raise e => Raise e
       end;
     grade_binning := @grade_binning _ _ _ h |}.

(** The helper functions in the order a request goes through them. *)
Definition pipeline : list string :=
  ["parse_request"; "parse_input"; "feature_engineering"; "predict_score";
   "grade_binning"].

(** The last value a form gives a field, if it has the field. *)
Definition form_get (items : list (string * string)) (key : string)
  : option string :=
  snd <$> last (filter (fun kv => kv.1 = key) items).

(** The global a request is routed to: the branch its handler takes. *)
Definition form_variant (request : Request) : string :=
  if truthy (dict_get (jsonable_encoder_form (form request)) "bureau")
  then "model_bureau" else "model_no_bureau".

Definition body_variant (req : RequestBody) : string :=
  if truthy (dict_get (RequestBody_dict req) "bureau")
  then "model_bureau" else "model_no_bureau".

(** ** A configuration to run the handlers on *)

(** Models are stood for by the path they were loaded from; the helper
    passes its input through, scores by the model alone and bins with
    sample cut-offs.  None of these values is the service's: they only
    serve to run the handlers on concrete requests. *)
Module Fixture.

Definition load_all (path : string) : Result string := Ok path.

Definition load_without (missing path : string) : Result string :=
  if String.eqb path missing
  then Raise (Exc "FileNotFoundError" path)
  else Ok path.

(** Sample cut-offs, the same for both tags. *)
Definition sample_grade (proba : Q) (tag : string) : Result string :=
  Ok (if Qle_bool (8 # 10) proba then "A"
      else if Qle_bool (6 # 10) proba then "B"
      else "C").

Definition sample_helper : Helper string PyVal PyVal :=
  {| parse_request := fun d => Ok (PyDict d);
     parse_input := fun v => Ok v;
     feature_engineering := fun p => Ok p;
     predict_score := fun t m =>
       if String.eqb m bureau_path
       then Ok (3 # 2, 85 # 100, true)
       else Ok (-1 # 2, 30 # 100, false);
     grade_binning := sample_grade |}.

(** The two example payloads of the [/apiTest] route. *)
Definition bureaufound : RequestBody :=
  {| age := 20; income := 1000000 # 1; gender := Male;
     hasApplied := "Yes"; hasIncome := "Yes"; education := "Diploma";
     purpose := "Working Capital";
     bureau := Some {| loanWithDelay := 0; loanNoDelay := 0 |} |}.

Definition nobureau : RequestBody :=
  {| age := 22; income := 2000000 # 1; gender := Female;
     hasApplied := "No"; hasIncome := "Yes";
     education := "Bachelor Degree"; purpose := "Investment";
     bureau := None |}.

(** Two form submissions, with and without a bureau field. *)
Definition form_with_bureau : Request :=
  {| form := [("age", "20"); ("income", "1000000"); ("gender", "Male");
              ("bureau", "yes")] |}.

Definition form_empty_bureau : Request :=
  {| form := [("age", "22"); ("income", "2000000"); ("gender", "Female");
              ("bureau", "")] |}.

Definition form_without_bureau : Request :=
  {| form := [("age", "22"); ("income", "2000000"); ("gender", "Female")] |}.

(** The states after start-up when both artifacts load, and when one of
    them is missing. *)
Definition loaded : World string PyVal PyVal := startup load_all.

Definition bureau_failed : World string PyVal PyVal :=
  startup (load_without bureau_path).

Definition no_bureau_failed : World string PyVal PyVal :=
  startup (load_without no_bureau_path).

(** Validation errors as FastAPI reports them: a field missing from the
    body, the body missing altogether, and a body that is not JSON. *)
Definition missing_age : RequestValidationError :=
  {| errors := [ {| loc := [PyStr "body"; PyStr "age"];
                    msg := "field required";
                    type_ := "value_error.missing" |} ];
     body := PyDict ∅ |}.

Definition missing_body : RequestValidationError :=
  {| errors := [ {| loc := [PyStr "body"];
                    msg := "field required";
                    type_ := "value_error.missing" |} ];
     body := PyNone |}.

Definition malformed_json : RequestValidationError :=
  {| errors := [ {| loc := [PyStr "body"; PyInt 1];
                    msg := "Expecting property name enclosed in double quotes";
                    type_ := "value_error.jsondecode" |} ];
     body := PyStr "{" |}.

End Fixture.

(** A helper that refuses a record without an age, to run the handlers
    on a failing helper call. *)
Module Strict.


Definition form_without_age : Request :=
  {| form := [("income", "1000000"); ("gender", "Male"); ("bureau", "yes")] |}.

(** A validation error with two entries and a nested location. *)
Definition two_errors : RequestValidationError :=
  {| errors := [ {| loc := [PyStr "body"; PyStr "bureau";
                            PyStr "loanWithDelay"];
                    msg := "value is not a valid integer";
                    type_ := "type_error.integer" |};
                 {| loc := [PyStr "body"; PyStr "age"];
                    msg := "field required";
                    type_ := "value_error.missing" |} ];
     body := PyDict ∅ |}.

(** A helper whose [parse_request] yields the record of the first
    example payload, as [req.dict()] gives it. *)
Definition fixed_helper : Helper string PyVal PyVal :=
  {| parse_request := fun _ => Ok (PyDict (RequestBody_dict Fixture.bureaufound));
     parse_input := @parse_input _ _ _ Fixture.sample_helper;
     feature_engineering := @feature_engineering _ _ _ Fixture.sample_helper;
     predict_score := @predict_score _ _ _ Fixture.sample_helper;
     grade_binning := @grade_binning _ _ _ Fixture.sample_helper |}.

End Strict.

(** * Properties *)

Section ApiFacts.
Context {Model Parsed Features : Type}.
Context {helper : Helper Model Parsed Features}.

Local Abbreviation World := (World Model Parsed Features).
Local Abbreviation Call := (Call Model Parsed Features).
Local Abbreviation Run := (@Run Model Parsed Features).

Implicit Types (w : World) (names : list string).

(** ** Composition rules for [reads_only] *)

Lemma extends_nil w : extends w w {| out_stdout := []; out_log := []; out_calls := [] |}.
Proof. unfold extends; simpl. rewrite !app_nil_r. auto. Qed.

Lemma extends_trans w w' w'' o o' :
  extends w w' o -> extends w' w'' o' ->
  extends w w'' {| out_stdout := out_stdout o ++ out_stdout o';
                   out_log := out_log o ++ out_log o';
                   out_calls := out_calls o ++ out_calls o' |}.
Proof.
  intros (H1 & H2 & H3) (H1' & H2' & H3'). unfold extends; simpl.
  rewrite H1', H2', H3', H1, H2, H3, <- !app_assoc. auto.
Qed.

Lemma agree_on_frame names w1 w2 w1' w2' :
  agree_on names w1 w2 ->
  globals w1' = globals w1 -> globals w2' = globals w2 ->
  agree_on names w1' w2'.
Proof. intros H E1 E2 k Hk. rewrite E1, E2. auto. Qed.

Lemma reads_only_ret {A} names (a : A) : reads_only names (mret a : Run A).
Proof.
  intros w1 w2 _. simpl. repeat split; trivial.
  eexists; split; apply extends_nil.
Qed.

Lemma reads_only_lift {A} names (r : Result A) : reads_only names (lift r : Run A).
Proof.
  intros w1 w2 _. simpl. repeat split; trivial.
  eexists; split; apply extends_nil.
Qed.

Lemma reads_only_invoke {A} names (c : Result A -> Call) (r : Result A) :
  reads_only names (invoke c r).
Proof.
  intros w1 w2 _. simpl. repeat split; trivial.
  exists {| out_stdout := []; out_log := []; out_calls := [c r] |}.
  unfold extends; simpl. rewrite !app_nil_r. auto.
Qed.

Lemma reads_only_logger names lvl (m : LogMsg) :
  reads_only names (logger lvl m : Run unit).
Proof.
  intros w1 w2 _. simpl. repeat split; trivial.
  exists {| out_stdout := []; out_calls := [];
            out_log := [{| level := lvl; message := m |}] |}.
  unfold extends; simpl. rewrite !app_nil_r. auto.
Qed.

Lemma reads_only_load_global names (name : string) :
  name ∈ names ->
  reads_only names (load_global name : Run Model).
Proof.
  intros Hin w1 w2 Hag. unfold load_global. rewrite (Hag name Hin).
  destruct (globals w2 !! name); simpl; repeat split; trivial;
    eexists; split; apply extends_nil.
Qed.

Lemma reads_only_bind {A B} names (m : Run A) (k : A -> Run B) :
  reads_only names m -> (forall a, reads_only names (k a)) ->
  reads_only names (m ≫= k).
Proof.
  intros Hm Hk w1 w2 Hag.
  destruct (Hm w1 w2 Hag) as (Hr & Hg1 & Hg2 & o & He1 & He2).
  unfold mbind, Run_bind.
  destruct (m w1) as [r1 w1'], (m w2) as [r2 w2']; simpl in *. subst r2.
  destruct r1 as [a | e]; simpl.
  - destruct (Hk a w1' w2') as (Hr' & Hg1' & Hg2' & o' & He1' & He2').
    { eapply agree_on_frame; eauto. }
    repeat split; try congruence.
    eexists; split; eapply extends_trans; eauto.
  - repeat split; trivial. exists o; auto.
Qed.

Lemma reads_only_weaken {A} names names' (m : Run A) :
  names ⊆ names' -> reads_only names m -> reads_only names' m.
Proof. intros Hsub Hm w1 w2 Hag. apply Hm. intros k Hk. apply Hag, Hsub, Hk. Qed.

(** ** What the handlers read *)

Ltac reads_step :=
  first
    [ apply reads_only_ret
    | apply reads_only_lift
    | apply reads_only_invoke
    | apply reads_only_logger
    | apply reads_only_load_global; set_solver
    | apply reads_only_bind; [| intros ?]
    | match goal with
      | |- reads_only _ (if ?b then _ else _) => destruct b
      | |- reads_only _ (let '(_, _) := ?x in _) => destruct x
      end ].

Lemma get_prediction_reads_only request :
  reads_only ["model_bureau"; "model_no_bureau"] (get_prediction request).
Proof. unfold get_prediction, logger_info. cbv zeta. repeat reads_step. Qed.

Lemma testing_reads_only req :
  reads_only ["model_bureau"; "model_no_bureau"] (testing req).
Proof. unfold testing, logger_info. cbv zeta. repeat reads_step. Qed.

Lemma root_reads_only names : reads_only names (root : Run Response).
Proof. unfold root, logger_debug. cbv zeta. repeat reads_step. Qed.

Lemma index_html_reads_only names request :
  reads_only names (index_html request : Run Response).
Proof. unfold index_html. repeat reads_step. Qed.

Lemma validation_exception_handler_reads_only names request exc :
  reads_only names (validation_exception_handler request exc : Run Response).
Proof.
  unfold validation_exception_handler, logger_error. cbv zeta.
  repeat reads_step.
Qed.

(** With the branch known, only the model of that branch is read. *)
Lemma get_prediction_reads_branch request :
  reads_only [form_variant request] (get_prediction request).
Proof.
  unfold form_variant, get_prediction, logger_info. cbv zeta.
  destruct (truthy _); repeat reads_step.
Qed.

Lemma testing_reads_branch req :
  reads_only [body_variant req] (testing req).
Proof.
  unfold body_variant, testing, logger_info. cbv zeta.
  destruct (truthy _); repeat reads_step.
Qed.

(** ** Running a handler symbolically *)

Ltac run_step :=
  match goal with
  | |- context [if truthy ?v then _ else _] => destruct (truthy v) eqn:?
  | |- context [match globals ?w !! ?n with _ => _ end] =>
      destruct (globals w !! n) eqn:?
  | |- context [match ?r with Ok _ => _ | Raise _ => _ end] =>
      lazymatch r with
      | context [match _ with _ => _ end] => fail
      | _ => destruct r as [ ? | ? ] eqn:?
      end
  | |- context [let '(_, _) := ?x in _] => is_var x; destruct x
  end; cbn [globals stdout log calls].

Ltac run handler :=
  unfold handler, logger_info, logger_error, logger_debug, logger; cbv zeta;
  unfold mbind, Run_bind, invoke, load_global, lift, mret, Run_ret;
  cbn [globals stdout log calls]; repeat run_step.

Lemma new_calls_app w w' (cs : list Call) :
  calls w' = calls w ++ cs -> new_calls w w' = cs.
Proof. intros E. unfold new_calls. rewrite E. apply drop_app_length. Qed.

Ltac since_start :=
  cbn [fst snd is_Ok];
  erewrite new_calls_app by (cbn [calls]; rewrite <- ?app_assoc; reflexivity);
  cbn [app].

Ltac in_list :=
  repeat first [apply list_elem_of_here | apply list_elem_of_further].

(** ** The bureau field and its truth value *)

Lemma jsonable_encoder_form_lookup items k :
  jsonable_encoder_form items !! k = PyStr <$> form_get items k.
Proof.
  unfold jsonable_encoder_form, form_get.
  induction items as [| [k' v] items IH] using rev_ind; [done |].
  rewrite foldl_app, filter_app. simpl.
  destruct (decide (k' = k)) as [-> | Hne].
  - rewrite lookup_insert_eq. rewrite filter_cons_True by done.
    rewrite filter_nil, last_snoc. done.
  - rewrite lookup_insert_ne by done. rewrite filter_cons_False by done.
    rewrite filter_nil, app_nil_r. done.
Qed.

Lemma form_bureau_truthy items :
  truthy (dict_get (jsonable_encoder_form items) "bureau") =
  match form_get items "bureau" with
  | Some s => negb (String.eqb s "")
  | None => false
  end.
Proof.
  unfold dict_get. rewrite jsonable_encoder_form_lookup.
  destruct (form_get items "bureau"); reflexivity.
Qed.

Lemma form_variant_bureau request s :
  form_get (form request) "bureau" = Some s -> s <> "" ->
  form_variant request = "model_bureau".
Proof.
  intros Hs Hne. unfold form_variant. rewrite form_bureau_truthy, Hs.
  apply String.eqb_neq in Hne. rewrite Hne. reflexivity.
Qed.

Lemma form_variant_no_bureau request :
  form_get (form request) "bureau" = None \/
  form_get (form request) "bureau" = Some "" ->
  form_variant request = "model_no_bureau".
Proof.
  intros Hs. unfold form_variant. rewrite form_bureau_truthy.
  destruct Hs as [-> | ->]; reflexivity.
Qed.

Lemma RequestBody_dict_bureau req :
  dict_get (RequestBody_dict req) "bureau" =
  match bureau req with Some b => PyDict (Bureau_dict b) | None => PyNone end.
Proof.
  unfold dict_get, RequestBody_dict.
  rewrite !lookup_insert_ne by done. rewrite lookup_singleton_eq. done.
Qed.

Lemma truthy_Bureau_dict b : truthy (PyDict (Bureau_dict b)) = true.
Proof.
  unfold truthy, Bureau_dict.
  rewrite map_size_insert_None by done. done.
Qed.

Lemma body_bureau_truthy req :
  truthy (dict_get (RequestBody_dict req) "bureau") =
  match bureau req with Some _ => true | None => false end.
Proof.
  rewrite RequestBody_dict_bureau.
  destruct (bureau req); [apply truthy_Bureau_dict | reflexivity].
Qed.

Lemma body_variant_bureau req :
  body_variant req =
  match bureau req with
  | Some _ => "model_bureau"
  | None => "model_no_bureau"
  end.
Proof.
  unfold body_variant. rewrite body_bureau_truthy.
  destruct (bureau req); reflexivity.
Qed.

(** ** Routing *)

Lemma get_prediction_routed request w :
  routed_to (form_variant request) w (get_prediction request w) /\
  binned_as (form_variant request) w (get_prediction request w).
Proof.
  unfold form_variant, routed_to, binned_as.
  run @get_prediction.
  all: since_start.
  all: (split; [split |]); try discriminate.
  all: try (repeat constructor; assumption).
  all: intros _.
  all: try (eexists _, _, _; split; [reflexivity |]).
  all: try (eexists _, _).
  all: in_list.
Qed.

Lemma testing_routed req w :
  routed_to (body_variant req) w (testing req w).
Proof.
  unfold body_variant, routed_to.
  run @testing.
  all: since_start.
  all: split; try discriminate.
  all: try (repeat constructor; assumption).
  all: intros _.
  all: try (eexists _, _, _; split; [reflexivity |]).
  all: in_list.
Qed.

Lemma get_prediction_goes_through request w :
  get_prediction_scores_with (form_variant request) request w.
Proof.
  unfold get_prediction_scores_with, form_variant.
  intros data parsed t m. cbv zeta. intros Hd Hp Ht.
  unfold get_prediction, logger_info, logger; cbv zeta.
  unfold mbind, Run_bind, Result_bind, invoke, load_global, mret, Run_ret.
  rewrite Hd. cbn [globals stdout log calls].
  rewrite Hp. cbn [globals stdout log calls].
  rewrite Ht. cbn [globals stdout log calls].
  destruct (truthy _); intros Hm; cbn [globals stdout log calls];
    rewrite Hm; cbn [globals stdout log calls].
  all: destruct (predict_score t m) as [[[score proba] dec] | e];
    cbn [globals stdout log calls];
    [destruct (grade_binning proba _) as [grade | e] |].
  all: since_start; split; reflexivity.
Qed.

Lemma testing_goes_through req w :
  testing_scores_with (body_variant req) req w.
Proof.
  unfold testing_scores_with, body_variant.
  intros parsed t m. cbv zeta. intros Hp Ht.
  unfold testing, logger_info, logger; cbv zeta.
  unfold mbind, Run_bind, Result_bind, invoke, load_global, mret, Run_ret.
  rewrite Hp. cbn [globals stdout log calls].
  rewrite Ht. cbn [globals stdout log calls].
  destruct (truthy _); intros Hm; cbn [globals stdout log calls];
    rewrite Hm; cbn [globals stdout log calls].
  all: destruct (predict_score t m) as [[[score proba] dec] | e].
  all: since_start; split; reflexivity.
Qed.

Lemma get_prediction_fails_unscored request w :
  globals w !! form_variant request = None ->
  fails_unscored w (get_prediction request w).
Proof.
  unfold fails_unscored, form_variant.
  run @get_prediction; intros H; try congruence.
  all: since_start.
  all: split; [reflexivity | repeat constructor].
Qed.

Lemma testing_fails_unscored req w :
  globals w !! body_variant req = None ->
  fails_unscored w (testing req w).
Proof.
  unfold fails_unscored, body_variant.
  run @testing; intros H; try congruence.
  all: since_start.
  all: split; [reflexivity | repeat constructor].
Qed.

(** C1: a request whose bureau field is present and non-empty is scored
    with [model_bureau] (and, on the form route, binned under the tag
    ['model_bureau']); one whose bureau is absent, null or empty is scored
    with [model_no_bureau] (tag ['model_no_bureau']).  In both flows the
    run goes through with that variant: once the input is parsed and the
    features are built, the scoring call is made on the model bound to
    the routed global (followed, on the form route, by the binning call
    under its tag), and the answer is the one of these calls.  It is
    never the other variant: every call of the run is consistent with
    the routed one, the run reads no other model (its outcome is the
    same whatever the other global is bound to), and with the routed
    global unbound nothing is scored. *)
Theorem bureau_routing :
  (forall request w s,
      form_get (form request) "bureau" = Some s -> s <> "" ->
      routed_to "model_bureau" w (get_prediction request w) /\
      binned_as "model_bureau" w (get_prediction request w) /\
      reads_only ["model_bureau"] (get_prediction request) /\
      get_prediction_scores_with "model_bureau" request w /\
      (globals w !! "model_bureau" = None ->
       fails_unscored w (get_prediction request w))) /\
  (forall request w,
      form_get (form request) "bureau" = None \/
      form_get (form request) "bureau" = Some "" ->
      routed_to "model_no_bureau" w (get_prediction request w) /\
      binned_as "model_no_bureau" w (get_prediction request w) /\
      reads_only ["model_no_bureau"] (get_prediction request) /\
      get_prediction_scores_with "model_no_bureau" request w /\
      (globals w !! "model_no_bureau" = None ->
       fails_unscored w (get_prediction request w))) /\
  (forall req w b,
      bureau req = Some b ->
      routed_to "model_bureau" w (testing req w) /\
      reads_only ["model_bureau"] (testing req) /\
      testing_scores_with "model_bureau" req w /\
      (globals w !! "model_bureau" = None ->
       fails_unscored w (testing req w))) /\
  (forall req w,
      bureau req = None ->
      routed_to "model_no_bureau" w (testing req w) /\
      reads_only ["model_no_bureau"] (testing req) /\
      testing_scores_with "model_no_bureau" req w /\
      (globals w !! "model_no_bureau" = None ->
       fails_unscored w (testing req w))).
Proof.
  repeat apply conj.
  - intros request w s Hs Hne.
    rewrite <- (form_variant_bureau request s Hs Hne).
    pose proof (get_prediction_routed request w).
    pose proof (get_prediction_reads_branch request).
    pose proof (get_prediction_goes_through request w).
    pose proof (get_prediction_fails_unscored request w). tauto.
  - intros request w Hs.
    rewrite <- (form_variant_no_bureau request Hs).
    pose proof (get_prediction_routed request w).
    pose proof (get_prediction_reads_branch request).
    pose proof (get_prediction_goes_through request w).
    pose proof (get_prediction_fails_unscored request w). tauto.
  - intros req w b Hb.
    pose proof (testing_routed req w) as H.
    pose proof (testing_reads_branch req) as R.
    pose proof (testing_goes_through req w) as G.
    pose proof (testing_fails_unscored req w) as U.
    rewrite body_variant_bureau, Hb in H, R, G, U. tauto.
  - intros req w Hb.
    pose proof (testing_routed req w) as H.
    pose proof (testing_reads_branch req) as R.
    pose proof (testing_goes_through req w) as G.
    pose proof (testing_fails_unscored req w) as U.
    rewrite body_variant_bureau, Hb in H, R, G, U. tauto.
Qed.

(** ** The JSON route *)

(** C2: a successful answer of [/apiTest] is exactly the object
    [{"LoanDecision": b}], where [b] is the decision of the triple
    [predict_score] returned for the features of the request and the model
    selected by its bureau field; the same object is what the response
    model lets through. *)
Theorem testing_returns_decision req w resp w' :
  testing req w = (Ok resp, w') ->
  exists parsed t m score proba b,
    parse_input (PyDict (RequestBody_dict req)) = Ok parsed /\
    feature_engineering parsed = Ok t /\
    globals w !! (match bureau req with
                  | Some _ => "model_bureau"
                  | None => "model_no_bureau"
                  end) = Some m /\
    predict_score t m = Ok (score, proba, b) /\
    resp = Returned (PyDict {[ "LoanDecision" := PyBool b ]}) /\
    serialize_response resp =
      Ok (JSONResponse 200 (PyDict {[ "LoanDecision" := PyBool b ]})).
Proof.
  revert w'. run @testing; intros w' E; try discriminate.
  all: rewrite body_bureau_truthy in *.
  all: injection E as <- <-.
  all: destruct (bureau req); try discriminate.
  all: eexists _, _, _, _, _, _.
  all: repeat (split; [eassumption || reflexivity |]).
  all: reflexivity.
Qed.

(** ** The form route *)

Lemma grade_in_approved grade :
  grade_in grade approved_grades = true <-> grade = "A" \/ grade = "B".
Proof.
  unfold grade_in, approved_grades. simpl.
  rewrite orb_false_r, orb_true_iff, !String.eqb_eq. tauto.
Qed.

(** C3: [/predict] renders the approval page exactly when the grade it
    computed is ['A'] or ['B'] and the rejection page for every other
    grade; the page is rendered with the request and that grade in its
    context. *)
Theorem get_prediction_page request w resp w' :
  get_prediction request w = (Ok resp, w') ->
  exists grade proba tag cs page,
    new_calls w w' = cs ++ [GradeBinning proba tag (Ok grade)] /\
    grade_binning proba tag = Ok grade /\
    resp = TemplateResponse page {[ "request" := CtxRequest request;
                                    "grade" := CtxStr grade ]} /\
    (page = "result_approve.html" <-> grade = "A" \/ grade = "B") /\
    (page = "result_reject.html" <-> ~ (grade = "A" \/ grade = "B")).
Proof.
  revert w'. run @get_prediction; intros w' E; try discriminate.
  all: injection E as <- <-.
  all: match goal with
       | H : grade_binning ?p ?tag = Ok ?g |- _ =>
           exists g, p, tag; eexists;
           exists (if grade_in g approved_grades
                   then "result_approve.html" else "result_reject.html")
       end.
  all: split;
    [ erewrite new_calls_app
        by (cbn [calls]; rewrite <- ?app_assoc; reflexivity);
      cbn [app];
      match goal with
      | |- [?a; ?b; ?c; ?d; ?e] = ?rhs => change ([a; b; c; d] ++ [e] = rhs)
      end; reflexivity |].
  all: split; [assumption |].
  all: split; [reflexivity |].
  all: rewrite <- grade_in_approved.
  all: destruct (grade_in _ approved_grades);
    (split; split; intros H; try reflexivity; try discriminate H;
     try (exfalso; apply H; reflexivity); try discriminate).
Qed.

(** ** The validation error handler *)

Lemma content_log_detail l b :
  py_get (PyDict {[ "detail" := PyList l; "body" := b ]}) "detail"
  = Ok (PyList l).
Proof. unfold py_get, dict_get. rewrite lookup_insert_eq. reflexivity. Qed.

Lemma encode_error_msg e : py_get (encode_error e) "msg" = Ok (PyStr (msg e)).
Proof.
  unfold py_get, dict_get, encode_error.
  rewrite lookup_insert_ne by done. rewrite lookup_insert_eq. reflexivity.
Qed.

Lemma encode_error_loc e : py_get (encode_error e) "loc" = Ok (PyList (loc e)).
Proof.
  unfold py_get, dict_get, encode_error.
  rewrite lookup_insert_eq. reflexivity.
Qed.

(** The handler, case by case on the shape of the first error. *)
Lemma validation_exception_handler_cases request exc w :
  validation_exception_handler request exc w =
  let content_log :=
    PyDict {[ "detail" := PyList (encode_error <$> errors exc);
              "body" := body exc ]} in
  let logged :=
    {| globals := globals w; stdout := stdout w;
       log := log w ++ [{| level := "ERROR"; message := Obj content_log |}];
       calls := calls w |} in
  match errors exc with
  | [] => (Raise IndexError, w)
  | e :: _ =>
      match loc e !! 1%nat with
      | None => (Raise IndexError, w)
      | Some (PyStr field) =>
          (Ok (JSONResponse HTTP_422_UNPROCESSABLE_ENTITY
                 (PyStr (String.append (String.append (msg e) ", field : ")
                                       field))),
           logged)
      | Some _ =>
          (Raise (TypeError "can only concatenate str to str"), logged)
      end
  end.
Proof.
  unfold validation_exception_handler, logger_error, logger. cbv zeta.
  unfold mbind, Run_bind, Result_bind, lift.
  rewrite !content_log_detail.
  destruct (errors exc) as [| e rest]; [reflexivity |].
  cbn [fmap list_fmap py_index lookup list_lookup].
  rewrite encode_error_msg, encode_error_loc.
  cbn [py_index].
  destruct (loc e !! 1%nat) as [[] |]; reflexivity.
Qed.

(** C9: the handler answers 422 only when [errors()] is non-empty and the
    location of its first entry has at least two elements (the second one
    then names the field); on an empty error list, and on a first
    location shorter than two, its own indexing raises [IndexError] and
    no response is produced. *)
Theorem validation_exception_handler_partial request exc w :
  (forall resp w',
      validation_exception_handler request exc w = (Ok resp, w') ->
      exists e rest field,
        errors exc = e :: rest /\
        (2 <= length (loc e))%nat /\
        loc e !! 1%nat = Some (PyStr field) /\
        resp = JSONResponse HTTP_422_UNPROCESSABLE_ENTITY
                 (PyStr (String.append
                           (String.append (msg e) ", field : ") field))) /\
  (errors exc = [] ->
   validation_exception_handler request exc w = (Raise IndexError, w)) /\
  (forall e rest,
      errors exc = e :: rest -> (length (loc e) < 2)%nat ->
      validation_exception_handler request exc w = (Raise IndexError, w)).
Proof.
  rewrite validation_exception_handler_cases. cbv zeta.
  repeat apply conj.
  - intros resp w' E.
    destruct (errors exc) as [| e rest]; [discriminate |].
    destruct (loc e !! 1%nat) as [x |] eqn:Hloc; [| discriminate].
    destruct x; try discriminate.
    injection E as <- <-. exists e, rest, s.
    apply lookup_lt_Some in Hloc as Hlen.
    split; [reflexivity |]. split; [lia |]. split; [exact Hloc | reflexivity].
  - intros ->. reflexivity.
  - intros e rest -> Hlen.
    rewrite (lookup_ge_None_2 (loc e) 1) by lia. reflexivity.
Qed.

(** When the second element of the location is not a string (the offset
    FastAPI reports for a body that is not JSON), the concatenation
    raises [TypeError] after the error has been logged. *)
Lemma validation_exception_handler_offset request exc w e rest z :
  errors exc = e :: rest -> loc e !! 1%nat = Some (PyInt z) ->
  (validation_exception_handler request exc w).1
  = Raise (TypeError "can only concatenate str to str").
Proof.
  intros He Hloc. rewrite validation_exception_handler_cases. cbv zeta.
  rewrite He, Hloc. reflexivity.
Qed.

(** C4: a request without a body fails validation with the location
    [("body",)]; the handler then raises [IndexError] instead of
    answering, so the caller gets a 500 and not the 422 naming the field.
    A body that is not JSON (location [("body", offset)]) ends the same
    way through [TypeError]. *)
Theorem validation_failure_escapes request w :
  validation_exception_handler request Fixture.missing_body w
    = (Raise IndexError, w) /\
  status_of (validation_exception_handler request Fixture.missing_body w).1
    = HTTP_500_INTERNAL_SERVER_ERROR /\
  status_of (validation_exception_handler request Fixture.malformed_json w).1
    = HTTP_500_INTERNAL_SERVER_ERROR.
Proof.
  rewrite !validation_exception_handler_cases. cbv zeta.
  repeat split.
Qed.

(** On the form route nothing catches what the helper raises, and no
    answer of the route is a 422: a malformed form either raises out of
    the handler or is scored. *)
Lemma get_prediction_propagates request w e :
  parse_request (jsonable_encoder_form (form request)) = Raise e ->
  (get_prediction request w).1 = Raise e.
Proof.
  intros H. unfold get_prediction. cbv zeta.
  unfold mbind, Run_bind, invoke. rewrite H. reflexivity.
Qed.

Lemma get_prediction_answers_page request w resp :
  (get_prediction request w).1 = Ok resp ->
  exists page context, resp = TemplateResponse page context.
Proof.
  run @get_prediction; cbn [fst]; intros E; try discriminate.
  all: injection E as <-; eauto.
Qed.

(** ** The models across requests *)

Lemma reads_only_frame {A} names (m : Run A) w :
  reads_only names m -> globals (m w).2 = globals w.
Proof. intros H. destruct (H w w) as (_ & Hg & _); [done | exact Hg]. Qed.

(** C8: no handler changes the module globals: after a request to any
    route, and after the validation error handler, [model_bureau] and
    [model_no_bureau] are bound to the models they were bound to before
    it. *)
Theorem handlers_keep_models w :
  (forall request, globals (get_prediction request w).2 = globals w) /\
  (forall req, globals (testing req w).2 = globals w) /\
  globals (root w).2 = globals w /\
  (forall request, globals (index_html request w).2 = globals w) /\
  (forall request exc,
      globals (validation_exception_handler request exc w).2 = globals w).
Proof.
  repeat apply conj; intros.
  - eapply reads_only_frame, get_prediction_reads_only.
  - eapply reads_only_frame, testing_reads_only.
  - eapply (reads_only_frame []), root_reads_only.
  - eapply (reads_only_frame []), index_html_reads_only.
  - eapply (reads_only_frame []), validation_exception_handler_reads_only.
Qed.

(** C10: [/apiTest] never calls [grade_binning], and its whole run
    (answer, log, calls) is the same whatever [grade_binning] is: the
    decision it returns is the one of [predict_score] and does not depend
    on the grade that selects the page of [/predict]. *)
Theorem testing_never_bins :
  (forall req w,
      Forall (fun c => is_grade_binning c = false)
             (new_calls w (testing req w).2)) /\
  (forall g req w,
      testing (helper := with_grade_binning g helper) req w = testing req w).
Proof.
  split.
  - intros req w. run @testing.
    all: since_start.
    all: repeat constructor.
  - intros g req w. reflexivity.
Qed.

(** ** Start-up and missing models *)

Lemma load_models_returns joblib_load w :
  (load_models joblib_load w).1 = Ok tt.
Proof.
  unfold load_models, try_except, mbind, Run_bind, lift, store_global, print.
  destruct (joblib_load bureau_path); [| reflexivity].
  cbn [globals stdout log calls].
  destruct (joblib_load no_bureau_path); reflexivity.
Qed.

Lemma startup_globals joblib_load :
  globals (startup joblib_load : World) =
  match joblib_load bureau_path, joblib_load no_bureau_path with
  | Ok mb, Ok mn => <["model_no_bureau" := mn]> {["model_bureau" := mb]}
  | Ok mb, Raise _ => {["model_bureau" := mb]}
  | Raise _, _ => ∅
  end.
Proof.
  unfold startup, load_models, try_except, mbind, Run_bind, lift,
    store_global, print, initial.
  destruct (joblib_load bureau_path); [| reflexivity].
  cbn [globals stdout log calls].
  destruct (joblib_load no_bureau_path); reflexivity.
Qed.

Lemma startup_stdout joblib_load :
  stdout (startup joblib_load : World) =
  match joblib_load bureau_path, joblib_load no_bureau_path with
  | Ok _, Ok _ => ["Model Loaded"]
  | _, _ => ["Fail to Load Model"]
  end.
Proof.
  unfold startup, load_models, try_except, mbind, Run_bind, lift,
    store_global, print, initial.
  destruct (joblib_load bureau_path); [| reflexivity].
  cbn [globals stdout log calls].
  destruct (joblib_load no_bureau_path); reflexivity.
Qed.

Lemma testing_unbound req w :
  globals w !! body_variant req = None ->
  is_Ok (testing req w).1 = false /\
  Forall (fun c => is_predict_score c = false)
         (new_calls w (testing req w).2) /\
  forall parsed t,
    parse_input (PyDict (RequestBody_dict req)) = Ok parsed ->
    feature_engineering parsed = Ok t ->
    (testing req w).1 = Raise (NameError (body_variant req)).
Proof.
  unfold body_variant. run @testing; intros H; try congruence.
  all: since_start.
  all: split; [reflexivity |]; split; [repeat constructor |].
  all: intros parsed t; congruence.
Qed.

Lemma get_prediction_unbound request w :
  globals w !! form_variant request = None ->
  is_Ok (get_prediction request w).1 = false /\
  Forall (fun c => is_predict_score c = false)
         (new_calls w (get_prediction request w).2) /\
  forall data parsed t,
    parse_request (jsonable_encoder_form (form request)) = Ok data ->
    parse_input data = Ok parsed ->
    feature_engineering parsed = Ok t ->
    (get_prediction request w).1 = Raise (NameError (form_variant request)).
Proof.
  unfold form_variant. run @get_prediction; intros H; try congruence.
  all: since_start.
  all: split; [reflexivity |]; split; [repeat constructor |].
  all: intros data parsed t; congruence.
Qed.

Lemma reads_only_same {A} (name : string) (m : Run A) w1 w2 :
  reads_only [name] m ->
  globals w1 !! name = globals w2 !! name -> (m w1).1 = (m w2).1.
Proof.
  intros H E. apply H. intros k Hk.
  apply list_elem_of_singleton in Hk as ->. exact E.
Qed.

(** C5 (as amended): loading the models never stops the process, whatever
    fails; a failed load is reported on the standard output, the model
    whose load failed stays unbound, and [model_bureau] is bound as soon
    as its own load succeeds.  A request routed to an
    unbound model does not return and makes no scoring call (so no other
    model answers in its place); once its input is parsed and its
    features are built it raises [NameError] for that model.  A request
    routed to a bound model is answered as in any other state where the
    same model is bound to that name. *)
Theorem load_failure joblib_load :
  let w0 : World := startup joblib_load in
  (forall w, (load_models joblib_load w).1 = Ok tt) /\
  (forall e, joblib_load bureau_path = Raise e ->
             globals w0 !! "model_bureau" = None) /\
  (forall e, joblib_load no_bureau_path = Raise e ->
             globals w0 !! "model_no_bureau" = None) /\
  (forall m, joblib_load bureau_path = Ok m ->
             globals w0 !! "model_bureau" = Some m) /\
  (forall req w,
      globals w !! body_variant req = None ->
      is_Ok (testing req w).1 = false /\
      Forall (fun c => is_predict_score c = false)
             (new_calls w (testing req w).2) /\
      forall parsed t,
        parse_input (PyDict (RequestBody_dict req)) = Ok parsed ->
        feature_engineering parsed = Ok t ->
        (testing req w).1 = Raise (NameError (body_variant req))) /\
  (forall request w,
      globals w !! form_variant request = None ->
      is_Ok (get_prediction request w).1 = false /\
      Forall (fun c => is_predict_score c = false)
             (new_calls w (get_prediction request w).2) /\
      forall data parsed t,
        parse_request (jsonable_encoder_form (form request)) = Ok data ->
        parse_input data = Ok parsed ->
        feature_engineering parsed = Ok t ->
        (get_prediction request w).1
        = Raise (NameError (form_variant request))) /\
  (forall req w1 w2,
      globals w1 !! body_variant req = globals w2 !! body_variant req ->
      (testing req w1).1 = (testing req w2).1) /\
  (forall request w1 w2,
      globals w1 !! form_variant request = globals w2 !! form_variant request ->
      (get_prediction request w1).1 = (get_prediction request w2).1) /\
  (forall e,
      joblib_load bureau_path = Raise e \/
      joblib_load no_bureau_path = Raise e ->
      stdout w0 = ["Fail to Load Model"]).
Proof.
  cbv zeta. rewrite startup_globals, startup_stdout. repeat apply conj.
  - apply load_models_returns.
  - intros e ->. reflexivity.
  - intros e ->. destruct (joblib_load bureau_path); [| reflexivity].
    rewrite lookup_singleton_ne by done. reflexivity.
  - intros m ->. destruct (joblib_load no_bureau_path).
    + rewrite lookup_insert_ne by done. apply lookup_singleton_eq.
    + apply lookup_singleton_eq.
  - apply testing_unbound.
  - apply get_prediction_unbound.
  - intros req w1 w2. apply reads_only_same, testing_reads_branch.
  - intros request w1 w2. apply reads_only_same, get_prediction_reads_branch.
  - intros e [-> | ->]; [reflexivity |].
    destruct (joblib_load bureau_path); reflexivity.
Qed.

(** ** More on the validation error handler *)

(** When the first error has a location whose second element is a
    string, the handler answers 422 with the message and that element,
    and the only change of state is one more [ERROR] record holding all
    the errors and the body. *)
Theorem validation_exception_handler_answers request exc w e rest field :
  errors exc = e :: rest ->
  loc e !! 1%nat = Some (PyStr field) ->
  validation_exception_handler request exc w =
  (Ok (JSONResponse HTTP_422_UNPROCESSABLE_ENTITY
         (PyStr (String.append (String.append (msg e) ", field : ") field))),
   logged w (error_record exc)).
Proof.
  intros He Hloc. rewrite validation_exception_handler_cases. cbv zeta.
  unfold logged, error_record. rewrite He, Hloc. reflexivity.
Qed.

(** Only the first error is reported: two validation errors whose
    [errors()] start with the same entry get the same answer (or the same
    exception), whatever follows, whatever the body, request and state. *)
Theorem validation_exception_handler_first_error
    request1 request2 exc1 exc2 w1 w2 :
  head (errors exc1) = head (errors exc2) ->
  (validation_exception_handler request1 exc1 w1).1
  = (validation_exception_handler request2 exc2 w2).1.
Proof.
  intros H. rewrite !validation_exception_handler_cases. cbv zeta.
  destruct (errors exc1) as [| e1 r1], (errors exc2) as [| e2 r2];
    try discriminate; [reflexivity |].
  injection H as ->.
  destruct (loc e2 !! 1%nat) as [[] |]; reflexivity.
Qed.

(** The error is logged exactly when the first location has a second
    element, also when the answer then fails: a second element that is
    not a string raises [TypeError] with the record already written;
    when the indexing fails the state is left as it was. *)
Theorem validation_exception_handler_log request exc w :
  (validation_exception_handler request exc w).2 =
    match errors exc with
    | e :: _ =>
        match loc e !! 1%nat with
        | Some _ => logged w (error_record exc)
        | None => w
        end
    | [] => w
    end /\
  (forall e rest x,
      errors exc = e :: rest -> loc e !! 1%nat = Some x ->
      (forall s, x <> PyStr s) ->
      validation_exception_handler request exc w =
      (Raise (TypeError "can only concatenate str to str"),
       logged w (error_record exc))).
Proof.
  rewrite validation_exception_handler_cases. cbv zeta.
  unfold logged, error_record. split.
  - destruct (errors exc) as [| e rest]; [reflexivity |].
    destruct (loc e !! 1%nat) as [[] |]; reflexivity.
  - intros e rest x -> -> Hx.
    destruct x; try reflexivity. destruct (Hx s). reflexivity.
Qed.

(** ** More on start-up *)

(** After start-up each global holds the artifact loaded from its own
    path: [model_bureau] is bound to [m] exactly when the bureau path
    loaded [m]; [model_no_bureau] exactly when the bureau path loaded and
    the other path loaded [m]; no other name is bound. *)
Theorem startup_bindings joblib_load (m : Model) :
  let w0 : World := startup joblib_load in
  (globals w0 !! "model_bureau" = Some m <->
   joblib_load bureau_path = Ok m) /\
  (globals w0 !! "model_no_bureau" = Some m <->
   (exists mb, joblib_load bureau_path = Ok mb) /\
   joblib_load no_bureau_path = Ok m) /\
  (forall k, is_Some (globals w0 !! k) ->
             k = "model_bureau" \/ k = "model_no_bureau").
Proof.
  cbv zeta. rewrite startup_globals.
  destruct (joblib_load bureau_path) as [mb | e1],
           (joblib_load no_bureau_path) as [mn | e2].
  all: repeat apply conj.
  all: try (intros k [x Hk];
            destruct (decide (k = "model_bureau")) as [-> | ?]; [by left |];
            destruct (decide (k = "model_no_bureau")) as [-> | ?];
              [by right |];
            rewrite ?lookup_insert_ne, ?lookup_singleton_ne, ?lookup_empty
              in Hk by done; discriminate).
  all: rewrite ?lookup_insert_eq, ?lookup_insert_ne, ?lookup_singleton_eq,
         ?lookup_singleton_ne, ?lookup_empty by done.
  all: repeat split; try congruence; eauto.
  all: try (intros [[? ?] ?]; congruence).
Qed.

(** Start-up prints one line: ["Model Loaded"] exactly when both models
    are bound, ["Fail to Load Model"] otherwise; [model_no_bureau] is
    never bound without [model_bureau]; nothing is logged and no helper
    is called. *)
Theorem startup_report joblib_load :
  let w0 : World := startup joblib_load in
  (stdout w0 = ["Model Loaded"] \/ stdout w0 = ["Fail to Load Model"]) /\
  (stdout w0 = ["Model Loaded"] <->
   is_Some (globals w0 !! "model_bureau") /\
   is_Some (globals w0 !! "model_no_bureau")) /\
  (is_Some (globals w0 !! "model_no_bureau") ->
   is_Some (globals w0 !! "model_bureau")) /\
  log w0 = [] /\ calls w0 = [].
Proof.
  cbv zeta. rewrite startup_globals, startup_stdout.
  assert (log (startup joblib_load : World) = [] /\
          calls (startup joblib_load : World) = []) as [-> ->].
  { unfold startup, load_models, try_except, mbind, Run_bind, lift,
      store_global, print, initial.
    destruct (joblib_load bureau_path); [| split; reflexivity].
    cbn [globals stdout log calls].
    destruct (joblib_load no_bureau_path); split; reflexivity. }
  destruct (joblib_load bureau_path) as [mb | e1],
           (joblib_load no_bureau_path) as [mn | e2].
  all: rewrite ?lookup_insert_eq, ?lookup_insert_ne, ?lookup_singleton_eq,
         ?lookup_singleton_ne, ?lookup_empty by done.
  all: unfold is_Some; repeat split; eauto; try discriminate.
  all: try (intros [[? ?] [? ?]]; discriminate).
  all: try (intros [? ?]; discriminate).
Qed.

(** ** More on the two scoring routes *)

(** A successful [/predict] is the whole pipeline, each step fed with
    what the step before returned: the parsed form goes to
    [parse_input], its result to [feature_engineering], the features and
    the model of the routed global to [predict_score], and the
    probability of that triple, under the tag of the same global, to
    [grade_binning]; these five calls are the only ones. *)
Theorem get_prediction_pipeline request w resp w' :
  get_prediction request w = (Ok resp, w') ->
  exists data parsed t m score proba dec grade,
    let reqData := jsonable_encoder_form (form request) in
    let name := form_variant request in
    parse_request reqData = Ok data /\
    parse_input data = Ok parsed /\
    feature_engineering parsed = Ok t /\
    globals w !! name = Some m /\
    predict_score t m = Ok (score, proba, dec) /\
    grade_binning proba name = Ok grade /\
    new_calls w w' =
      [ParseRequest reqData (Ok data); ParseInput data (Ok parsed);
       FeatureEngineering parsed (Ok t);
       PredictScore t m (Ok (score, proba, dec));
       GradeBinning proba name (Ok grade)].
Proof.
  unfold form_variant. revert w'.
  run @get_prediction; intros w' E; try discriminate.
  all: injection E as <- <-.
  all: eexists _, _, _, _, _, _, _, _; cbv zeta.
  all: repeat (split; [eassumption || reflexivity |]).
  all: erewrite new_calls_app
         by (cbn [calls]; rewrite <- ?app_assoc; reflexivity).
  all: reflexivity.
Qed.

(** Each helper is called at most once per request and in pipeline
    order, and a route stops at the first call that raises: the names of
    the calls of a run are a prefix of the pipeline ([/apiTest] starts at
    [parse_input] and stops before [grade_binning]), and every call but
    the last one returned. *)
Theorem calls_follow_pipeline w :
  (forall request,
      let cs := new_calls w (get_prediction request w).2 in
      call_name <$> cs `prefix_of` pipeline /\
      Forall (fun c => call_raised c = None) (removelast cs)) /\
  (forall req,
      let cs := new_calls w (testing req w).2 in
      call_name <$> cs `prefix_of`
        ["parse_input"; "feature_engineering"; "predict_score"] /\
      Forall (fun c => call_raised c = None) (removelast cs)).
Proof.
  split; intros x; cbv zeta.
  - run @get_prediction.
    all: since_start.
    all: split; [eexists; reflexivity | repeat constructor].
  - run @testing.
    all: since_start.
    all: split; [eexists; reflexivity | repeat constructor].
Qed.



(** [/apiTest] logs only when it answers: then it writes exactly one
    [INFO] record, the score; the decision and the body are not logged,
    and nothing is printed. *)
Theorem testing_log req w :
  let r := testing req w in
  stdout r.2 = stdout w /\
  (is_Ok r.1 = false -> log r.2 = log w) /\
  (is_Ok r.1 = true ->
   exists t m score proba dec,
     PredictScore t m (Ok (score, proba, dec)) ∈ new_calls w r.2 /\
     log r.2 = log w ++
       [ {| level := "INFO";
            message := FStr "predicting.." (PyFloat score) |} ]).
Proof.
  cbv zeta. run @testing.
  all: since_start.
  all: split; [reflexivity |]; split; intros E; try discriminate E.
  all: try reflexivity.
  all: eexists _, _, _, _, _; split; [in_list | reflexivity].
Qed.

(** The page of [/predict] depends on [predict_score] through the
    probability alone: changing the score and the decision of the
    triple in any way leaves the answer (page, context or exception) as
    it was; both are only logged. *)
Theorem get_prediction_ignores_decision
    (fs : Q -> Q) (fd : bool -> bool) request w :
  (get_prediction
     (helper := with_predict_score
                  (fun '(score, proba, dec) => (fs score, proba, fd dec))
                  helper)
     request w).1
  = (get_prediction request w).1.
Proof.
  unfold get_prediction, logger_info, logger; cbv zeta.
  unfold mbind, Run_bind, invoke, load_global, mret, Run_ret.
  cbn [predict_score parse_request parse_input feature_engineering
       grade_binning with_predict_score globals stdout log calls].
  repeat (run_step; cbn [fst snd]).
  all: reflexivity.
Qed.

(** The answer of [/apiTest] depends on [predict_score] through the
    decision alone: changing the score and the probability of the triple
    in any way leaves the answer as it was. *)
Theorem testing_ignores_score (fs fp : Q -> Q) req w :
  (testing
     (helper := with_predict_score
                  (fun '(score, proba, dec) => (fs score, fp proba, dec))
                  helper)
     req w).1
  = (testing req w).1.
Proof.
  unfold testing, logger_info, logger; cbv zeta.
  unfold mbind, Run_bind, invoke, load_global, mret, Run_ret.
  cbn [predict_score parse_request parse_input feature_engineering
       grade_binning with_predict_score globals stdout log calls].
  repeat (run_step; cbn [fst snd]).
  all: reflexivity.
Qed.

(** The two routes share the scoring: when [parse_request] turns the form
    into the record [req.dict()] gives for a body, and form and body are
    routed to the same global, an answered [/apiTest] returns the
    decision of a scoring call (same features, same model, same triple)
    that [/predict] makes as well. *)
Theorem routes_agree request req w resp w1 :
  parse_request (jsonable_encoder_form (form request))
  = Ok (PyDict (RequestBody_dict req)) ->
  form_variant request = body_variant req ->
  testing req w = (Ok resp, w1) ->
  exists t m score proba dec,
    resp = Returned (PyDict {[ "LoanDecision" := PyBool dec ]}) /\
    PredictScore t m (Ok (score, proba, dec)) ∈ new_calls w w1 /\
    PredictScore t m (Ok (score, proba, dec))
    ∈ new_calls w (get_prediction request w).2.
Proof.
  unfold form_variant, body_variant. intros Hp Hv. revert w1 Hv.
  unfold testing, get_prediction, logger_info, logger; cbv zeta.
  unfold mbind, Run_bind, invoke, load_global, mret, Run_ret.
  rewrite Hp. cbn [globals stdout log calls].
  repeat run_step.
  all: intros w1 Hv E; try discriminate.
  all: injection E as <- <-.
  all: unfold new_calls; cbn [fst snd calls]; rewrite <- ?app_assoc.
  all: rewrite !drop_app_length.
  all: eexists _, _, _, _, _; split; [reflexivity |]; split; in_list.
Qed.

End ApiFacts.

(** ** The statements on concrete requests *)

Section Examples.
Import Fixture.
Existing Instance sample_helper.

Lemma bureau_routing_witness :
  routed_to "model_bureau" loaded (get_prediction form_with_bureau loaded) /\
  routed_to "model_no_bureau" loaded
    (get_prediction form_empty_bureau loaded) /\
  routed_to "model_no_bureau" loaded
    (get_prediction form_without_bureau loaded) /\
  routed_to "model_bureau" loaded (testing bureaufound loaded) /\
  routed_to "model_no_bureau" loaded (testing nobureau loaded) /\
  (PredictScore (PyDict (jsonable_encoder_form (form form_with_bureau)))
     bureau_path (Ok (3 # 2, 85 # 100, true))
   ∈ new_calls loaded (get_prediction form_with_bureau loaded).2 /\
   GradeBinning (85 # 100) "model_bureau" (Ok "A")
   ∈ new_calls loaded (get_prediction form_with_bureau loaded).2 /\
   is_Ok (get_prediction form_with_bureau loaded).1 = true) /\
  (PredictScore (PyDict (RequestBody_dict nobureau)) no_bureau_path
     (Ok (-1 # 2, 30 # 100, false))
   ∈ new_calls loaded (testing nobureau loaded).2 /\
   (testing nobureau loaded).1
   = Ok (Returned (PyDict {[ "LoanDecision" := PyBool false ]}))) /\
  fails_unscored bureau_failed (testing bureaufound bureau_failed).
Proof.
  destruct (bureau_routing (helper := sample_helper)) as (H1 & H2 & H3 & H4).
  refine (conj _ (conj _ (conj _ (conj _ (conj _ (conj _ (conj _ _))))))).
  - apply (H1 form_with_bureau loaded "yes"); [reflexivity | discriminate].
  - apply (H2 form_empty_bureau loaded). right. reflexivity.
  - apply (H2 form_without_bureau loaded). left. reflexivity.
  - apply (H3 bureaufound loaded {| loanWithDelay := 0; loanNoDelay := 0 |}).
    reflexivity.
  - apply (H4 nobureau loaded). reflexivity.
  - destruct (H1 form_with_bureau loaded "yes") as (_ & _ & _ & G & _);
      [reflexivity | discriminate |].
    destruct (G (PyDict (jsonable_encoder_form (form form_with_bureau)))
                (PyDict (jsonable_encoder_form (form form_with_bureau)))
                (PyDict (jsonable_encoder_form (form form_with_bureau)))
                bureau_path) as [Hc Hr];
      [reflexivity | reflexivity | reflexivity | vm_compute; reflexivity |].
    rewrite Hc, Hr. repeat split.
    + do 3 apply list_elem_of_further. apply list_elem_of_here.
    + do 4 apply list_elem_of_further. apply list_elem_of_here.
  - destruct (H4 nobureau loaded) as (_ & _ & G & _); [reflexivity |].
    destruct (G (PyDict (RequestBody_dict nobureau))
                (PyDict (RequestBody_dict nobureau)) no_bureau_path)
      as [Hc Hr];
      [reflexivity | reflexivity | vm_compute; reflexivity |].
    rewrite Hc, Hr. split; [| reflexivity].
    do 2 apply list_elem_of_further. apply list_elem_of_here.
  - destruct (H3 bureaufound bureau_failed
                {| loanWithDelay := 0; loanNoDelay := 0 |})
      as (_ & _ & _ & U); [reflexivity |].
    apply U. vm_compute. reflexivity.
Defined.

Lemma testing_returns_decision_witness :
  exists parsed t m score proba b,
    parse_input (PyDict (RequestBody_dict bureaufound)) = Ok parsed /\
    feature_engineering parsed = Ok t /\
    globals loaded !! "model_bureau" = Some m /\
    predict_score t m = Ok (score, proba, b) /\
    Returned (PyDict {[ "LoanDecision" := PyBool true ]})
    = Returned (PyDict {[ "LoanDecision" := PyBool b ]}) /\
    serialize_response (Returned (PyDict {[ "LoanDecision" := PyBool true ]}))
    = Ok (JSONResponse 200 (PyDict {[ "LoanDecision" := PyBool b ]})).
Proof.
  apply (testing_returns_decision bureaufound loaded
           (Returned (PyDict {[ "LoanDecision" := PyBool true ]}))
           (testing bureaufound loaded).2).
  vm_compute. reflexivity.
Defined.

Lemma get_prediction_page_witness :
  exists grade proba tag cs page,
    new_calls loaded (get_prediction form_with_bureau loaded).2
    = cs ++ [GradeBinning proba tag (Ok grade)] /\
    grade_binning proba tag = Ok grade /\
    TemplateResponse "result_approve.html"
      {[ "request" := CtxRequest form_with_bureau; "grade" := CtxStr "A" ]}
    = TemplateResponse page {[ "request" := CtxRequest form_with_bureau;
                               "grade" := CtxStr grade ]} /\
    (page = "result_approve.html" <-> grade = "A" \/ grade = "B") /\
    (page = "result_reject.html" <-> ~ (grade = "A" \/ grade = "B")).
Proof.
  apply (get_prediction_page form_with_bureau loaded).
  vm_compute. reflexivity.
Defined.

Lemma validation_exception_handler_partial_witness :
  exists e rest field,
    errors missing_age = e :: rest /\
    (2 <= length (loc e))%nat /\
    loc e !! 1%nat = Some (PyStr field) /\
    JSONResponse 422 (PyStr "field required, field : age")
    = JSONResponse HTTP_422_UNPROCESSABLE_ENTITY
        (PyStr (String.append (String.append (msg e) ", field : ") field)).
Proof.
  destruct (validation_exception_handler_partial
              form_with_bureau missing_age loaded) as (H & _ & _).
  apply (H (JSONResponse 422 (PyStr "field required, field : age"))
           (validation_exception_handler form_with_bureau missing_age
              loaded).2).
  vm_compute. reflexivity.
Defined.

Lemma load_failure_witness :
  stdout no_bureau_failed = ["Fail to Load Model"] /\
  globals no_bureau_failed !! "model_no_bureau" = None /\
  globals no_bureau_failed !! "model_bureau" = Some bureau_path /\
  (testing nobureau no_bureau_failed).1
  = Raise (NameError (body_variant nobureau)) /\
  (testing bureaufound no_bureau_failed).1 = (testing bureaufound loaded).1.
Proof.
  destruct (load_failure (helper := sample_helper)
              (load_without no_bureau_path))
    as (_ & _ & H3 & H4 & H5 & _ & H7 & _ & H9).
  refine (conj _ (conj _ (conj _ (conj _ _)))).
  - apply (H9 (Exc "FileNotFoundError" no_bureau_path)). right. reflexivity.
  - apply (H3 (Exc "FileNotFoundError" no_bureau_path)). reflexivity.
  - apply (H4 bureau_path). reflexivity.
  - destruct (H5 nobureau no_bureau_failed) as (_ & _ & H).
    + vm_compute. reflexivity.
    + apply (H (PyDict (RequestBody_dict nobureau))
               (PyDict (RequestBody_dict nobureau))); reflexivity.
  - apply (H7 bureaufound no_bureau_failed loaded). reflexivity.
Defined.

(** With the bureau artifact missing and the other one loadable, a
    request with bureau data fails with [NameError], not with a
    [ScoringError], and a request without bureau data, which the loaded
    service answers, fails as well: the bureau-absent variant does not
    keep serving. *)
Lemma load_failure_counterexample :
  load_without bureau_path bureau_path
  = Raise (Exc "FileNotFoundError" bureau_path) /\
  load_without bureau_path no_bureau_path = Ok no_bureau_path /\
  (testing bureaufound bureau_failed).1 = Raise (NameError "model_bureau") /\
  exc_class (NameError "model_bureau") <> "ScoringError" /\
  is_Ok (testing nobureau loaded).1 = true /\
  (testing nobureau bureau_failed).1 = Raise (NameError "model_no_bureau").
Proof.
  repeat apply conj; try (vm_compute; reflexivity). discriminate.
Defined.

End Examples.

(** ** Further statements on concrete requests *)

Section MoreExamples.
Import Fixture Strict.
Existing Instance sample_helper.

(** A nested location names its top-level field. *)
Lemma validation_exception_handler_answers_witness :
  validation_exception_handler form_with_bureau two_errors loaded =
  (Ok (JSONResponse 422
         (PyStr "value is not a valid integer, field : bureau")),
   logged loaded (error_record two_errors)).
Proof.
  apply (validation_exception_handler_answers form_with_bureau two_errors
           loaded
           {| loc := [PyStr "body"; PyStr "bureau"; PyStr "loanWithDelay"];
              msg := "value is not a valid integer";
              type_ := "type_error.integer" |}
           (drop 1 (errors two_errors)) "bureau"); reflexivity.
Defined.

Lemma validation_exception_handler_first_error_witness :
  (validation_exception_handler form_with_bureau two_errors loaded).1
  = (validation_exception_handler form_without_age
       {| errors := take 1 (errors two_errors); body := PyNone |}
       bureau_failed).1.
Proof.
  apply validation_exception_handler_first_error. reflexivity.
Defined.

Lemma validation_exception_handler_log_witness :
  validation_exception_handler form_with_bureau malformed_json loaded =
  (Raise (TypeError "can only concatenate str to str"),
   logged loaded (error_record malformed_json)).
Proof.
  destruct (validation_exception_handler_log form_with_bureau malformed_json
              loaded) as [_ H].
  eapply (H _ [] (PyInt 1)); [reflexivity | reflexivity | discriminate].
Defined.

Lemma startup_bindings_witness :
  globals no_bureau_failed !! "model_bureau" = Some bureau_path /\
  load_all no_bureau_path = Ok no_bureau_path.
Proof.
  split.
  - destruct (startup_bindings (Parsed := PyVal) (Features := PyVal)
                (load_without no_bureau_path) bureau_path) as [[_ H] _].
    apply H. reflexivity.
  - destruct (startup_bindings (Parsed := PyVal) (Features := PyVal)
                load_all no_bureau_path) as (_ & [H _] & _).
    apply H. vm_compute. reflexivity.
Defined.

Lemma startup_report_witness :
  stdout loaded = ["Model Loaded"] /\
  is_Some (globals loaded !! "model_bureau").
Proof.
  destruct (startup_report (Parsed := PyVal) (Features := PyVal) load_all)
    as (_ & [_ H] & H' & _).
  assert (is_Some (globals loaded !! "model_no_bureau")) as Hn.
  { exists no_bureau_path. vm_compute. reflexivity. }
  split.
  - apply H. split; [apply H' |]; exact Hn.
  - apply H'. exact Hn.
Defined.

Lemma get_prediction_pipeline_witness :
  exists data parsed t m score proba dec grade,
    parse_request (jsonable_encoder_form (form form_with_bureau)) = Ok data /\
    parse_input data = Ok parsed /\
    feature_engineering parsed = Ok t /\
    globals loaded !! form_variant form_with_bureau = Some m /\
    predict_score t m = Ok (score, proba, dec) /\
    grade_binning proba (form_variant form_with_bureau) = Ok grade /\
    new_calls loaded (get_prediction form_with_bureau loaded).2 =
      [ParseRequest (jsonable_encoder_form (form form_with_bureau)) (Ok data);
       ParseInput data (Ok parsed);
       FeatureEngineering parsed (Ok t);
       PredictScore t m (Ok (score, proba, dec));
       GradeBinning proba (form_variant form_with_bureau) (Ok grade)].
Proof.
  apply (get_prediction_pipeline (helper := sample_helper) form_with_bureau
           loaded
           (TemplateResponse "result_approve.html"
              {[ "request" := CtxRequest form_with_bureau;
                 "grade" := CtxStr "A" ]})).
  vm_compute. reflexivity.
Defined.



Lemma testing_log_witness :
  log (testing (helper := sample_helper) nobureau bureau_failed).2
  = log bureau_failed.
Proof.
  destruct (testing_log (helper := sample_helper) nobureau bureau_failed)
    as (_ & H & _).
  apply H. vm_compute. reflexivity.
Defined.

Lemma routes_agree_witness :
  exists t m score proba dec,
    Returned (PyDict {[ "LoanDecision" := PyBool true ]})
    = Returned (PyDict {[ "LoanDecision" := PyBool dec ]}) /\
    PredictScore t m (Ok (score, proba, dec))
    ∈ new_calls loaded (testing (helper := fixed_helper) bureaufound loaded).2 /\
    PredictScore t m (Ok (score, proba, dec))
    ∈ new_calls loaded
        (get_prediction (helper := fixed_helper) form_with_bureau loaded).2.
Proof.
  apply (routes_agree (helper := fixed_helper) form_with_bureau bureaufound
           loaded).
  - reflexivity.
  - vm_compute. reflexivity.
  - vm_compute. reflexivity.
Defined.

End MoreExamples.
